(** * block_drift_exporter: a shallow embedding and its checked properties

    Source: [src/bc/monitoring/block_drift/block_drift_exporter.py].

    Modelling conventions.
    - Python [int] is [Z]; [str(n)] and [int(s)] are modelled without the
      interpreter's configurable limit on the number of decimal digits.
    - Python [str] is [string]; the characters are ASCII.  [int(s, base)]
      follows CPython's [PyLong_FromString] on such strings.
    - A Python [float] is a [spec_float] (sign, mantissa, binary exponent).
    - The value returned by [resp.json()] is a [pyval]; a dict is an
      insertion-ordered association list with distinct keys.
    - The network is a parameter: a world [World] and a function [post]
      that answers one request and yields the next world.
    - Exceptions, the log, the requests sent and the module globals are
      threaded through a small state-and-exception monad. *)

From Stdlib Require Import Ascii SpecFloat.
From Stdlib Require String.
From stdpp Require Import base numbers option list strings pretty gmap fin_maps.

Set Warnings "-register-all".
Local Open Scope Z_scope.

(** ** Characters that cannot be written inside a string literal *)

Definition dquote : string := String "034"%char EmptyString.
Definition nl : string := String "010"%char EmptyString.

(** ** Python values, as [resp.json()] and the literals of the module build them *)

Inductive pyval : Type :=
| PyNone
| PyBool (b : bool)
| PyInt (n : Z)
| PyFloat (f : spec_float)
| PyStr (s : string)
| PyList (items : list pyval)
| PyDict (items : list (string * pyval)).

(** [d.get(key)] on a dict: the value bound to [key], [None] when there is none. *)
Fixpoint dict_get (items : list (string * pyval)) (key : string) : pyval :=
  match items with
  | [] => PyNone
  | (k, v) :: rest => if String.eqb k key then v else dict_get rest key
  end.

(** ** Exceptions *)

Inductive exn : Type :=
| RequestException (detail : string)   (* raised by requests.post *)
| JSONDecodeError (detail : string)    (* raised by resp.json() *)
| AttributeError (detail : string)
| TypeError (detail : string)
| ValueError (detail : string)
| OverflowError (detail : string)
| NameError (name : string)
| KeyError (key : string)
| SystemExit (code : Z).

(** [except Exception] catches every class but the ones deriving directly
    from [BaseException]. *)
Definition is_Exception (e : exn) : bool :=
  match e with
  | SystemExit _ => false
  | _ => true
  end.

Inductive result (A : Type) : Type :=
| Ok (a : A)
| Raise (e : exn).
Arguments Ok {A} a.
Arguments Raise {A} e.

(** ** [int(x)] and [int(x, base)] *)

Module PyLong.

(** [Py_ISSPACE]: tab, newline, vertical tab, form feed, carriage return, space. *)
Definition Py_ISSPACE (c : ascii) : bool :=
  let n := Z.of_N (N_of_ascii c) in
  ((9 <=? n) && (n <=? 13)) || (n =? 32).

(** [_PyLong_DigitValue]: 0-9, a-z and A-Z map to 0..35, everything else to 37. *)
Definition DigitValue (c : ascii) : Z :=
  let n := Z.of_N (N_of_ascii c) in
  if (48 <=? n) && (n <=? 57) then n - 48
  else if (97 <=? n) && (n <=? 122) then n - 97 + 10
  else if (65 <=? n) && (n <=? 90) then n - 65 + 10
  else 37.

Fixpoint skip_spaces (s : string) : string :=
  match s with
  | String c rest => if Py_ISSPACE c then skip_spaces rest else s
  | EmptyString => s
  end.

(** The digit loop of [long_from_binary_base] / [long_from_non_binary_base]:
    digits below [base] and single underscores between them.  Returns the
    value read, the number of digits and the unread rest; [None] on a
    doubled or trailing underscore. *)
Fixpoint scan_digits (base : Z) (p : string) (prev : ascii) (z : Z) (digits : nat)
  : option (Z * nat * string) :=
  match p with
  | String c rest =>
      if Ascii.eqb c "_" then
        if Ascii.eqb prev "_" then None
        else scan_digits base rest c z digits
      else if DigitValue c <? base then
        scan_digits base rest c (z * base + DigitValue c) (S digits)
      else if Ascii.eqb prev "_" then None
      else Some (z, digits, p)
  | EmptyString => if Ascii.eqb prev "_" then None else Some (z, digits, p)
  end.

Definition read_sign (s : string) : Z * string :=
  match s with
  | String "+" rest => (1, rest)
  | String "-" rest => (-1, rest)
  | _ => (1, s)
  end.

(** The optional [0x] / [0o] / [0b] prefix of an explicit base 16 / 8 / 2,
    after which one underscore is allowed. *)
Definition skip_prefix (base : Z) (s : string) : string :=
  match s with
  | String "0" (String c rest) =>
      if ((base =? 16) && (Ascii.eqb c "x" || Ascii.eqb c "X"))
         || ((base =? 8) && (Ascii.eqb c "o" || Ascii.eqb c "O"))
         || ((base =? 2) && (Ascii.eqb c "b" || Ascii.eqb c "B"))
      then match rest with
           | String "_" rest' => rest'
           | _ => rest
           end
      else s
  | _ => s
  end.

(** [PyLong_FromString] for an explicit base between 2 and 36; [None] is
    the [ValueError] "invalid literal for int()". *)
Definition FromString (s : string) (base : Z) : option Z :=
  let '(sign, s1) := read_sign (skip_spaces s) in
  let s2 := skip_prefix base s1 in
  match s2 with
  | String "_" _ => None
  | _ =>
      match scan_digits base s2 "000"%char 0 0 with
      | None => None
      | Some (z, digits, rest) =>
          if Nat.eqb digits 0 then None
          else match skip_spaces rest with
               | EmptyString => Some (sign * z)
               | _ => None
               end
      end
  end.

(** [int(f)] for a float: truncation toward zero. *)
Definition FromDouble (f : spec_float) : result Z :=
  match f with
  | S754_zero _ => Ok 0
  | S754_infinity _ => Raise (OverflowError "cannot convert float infinity to integer")
  | S754_nan => Raise (ValueError "cannot convert float NaN to integer")
  | S754_finite s m e =>
      let mag := Z.shiftl (Z.pos m) e in
      Ok (if s then - mag else mag)
  end.

End PyLong.

(** [int(x)] *)
Definition py_int (x : pyval) : result Z :=
  match x with
  | PyInt n => Ok n
  | PyBool b => Ok (if b then 1 else 0)
  | PyFloat f => PyLong.FromDouble f
  | PyStr s =>
      match PyLong.FromString s 10 with
      | Some z => Ok z
      | None => Raise (ValueError "invalid literal for int() with base 10")
      end
  | PyNone | PyList _ | PyDict _ =>
      Raise (TypeError "int() argument must be a string, a bytes-like object or a real number")
  end.

(** [int(x, base)] *)
Definition py_int_base (x : pyval) (base : Z) : result Z :=
  match x with
  | PyStr s =>
      match PyLong.FromString s base with
      | Some z => Ok z
      | None => Raise (ValueError ("invalid literal for int() with base " +:+ pretty base))
      end
  | _ => Raise (TypeError "int() can't convert non-string with explicit base")
  end.

(** [str.strip()]: whitespace for [str] is [Py_ISSPACE] plus the four
    separators 0x1c..0x1f. *)
Definition str_isspace (c : ascii) : bool :=
  let n := Z.of_N (N_of_ascii c) in
  ((9 <=? n) && (n <=? 13)) || ((28 <=? n) && (n <=? 32)).

Fixpoint lstrip (s : string) : string :=
  match s with
  | String c rest => if str_isspace c then lstrip rest else s
  | EmptyString => s
  end.

Definition strip (s : string) : string :=
  String.rev (lstrip (String.rev (lstrip s))).

(** [str(e)] for an exception built from one message. *)
Definition exc_str (e : exn) : string :=
  match e with
  | RequestException d | JSONDecodeError d | AttributeError d
  | TypeError d | ValueError d | OverflowError d => d
  | NameError n => "name '" +:+ n +:+ "' is not defined"
  | KeyError k => "'" +:+ k +:+ "'"
  | SystemExit c => pretty c
  end.

(** ** The chain registry *)

Record chain_config : Type := {
  local : string;
  remote : string;
  is_hex : bool;
  jsonrpc_body : pyval;
}.

Definition body_sol : pyval :=
  PyDict [("jsonrpc", PyStr "2.0"); ("id", PyInt 1); ("method", PyStr "getBlockHeight")].

Definition body_evm : pyval :=
  PyDict [("jsonrpc", PyStr "2.0"); ("id", PyInt 1); ("method", PyStr "eth_blockNumber");
          ("params", PyList [])].

(** The dict literal, in source order. *)
Definition CHAIN_CONFIGS_items : list (string * chain_config) := [
  ("sol", {| local := "http://127.0.0.1:8899";
             remote := "https://api.mainnet-beta.solana.com";
             is_hex := false; jsonrpc_body := body_sol |});
  ("eth", {| local := "http://127.0.0.1:8545";
             remote := "https://ethereum.llamarpc.com";
             is_hex := true; jsonrpc_body := body_evm |});
  ("bsc", {| local := "http://127.0.0.1:8545";
             remote := "https://bsc-dataseed1.binance.org/";
             is_hex := true; jsonrpc_body := body_evm |});
  ("base", {| local := "http://127.0.0.1:8545";
              remote := "https://mainnet.base.org";
              is_hex := true; jsonrpc_body := body_evm |});
  ("sonic", {| local := "http://127.0.0.1:18545";
               remote := "https://sonic-rpc.publicnode.com:443";
               is_hex := true; jsonrpc_body := body_evm |});
  ("bera", {| local := "http://127.0.0.1:8545";
              remote := "https://berachain-rpc.publicnode.com";
              is_hex := true; jsonrpc_body := body_evm |});
  ("story", {| local := "http://127.0.0.1:8545";
               remote := "https://mainnet.storyrpc.io";
               is_hex := true; jsonrpc_body := body_evm |});
  ("pulse", {| local := "http://127.0.0.1:8545";
               remote := "https://pulsechain-rpc.publicnode.com";
               is_hex := true; jsonrpc_body := body_evm |});
  ("avalanchego", {| local := "http://127.0.0.1:8545/ext/bc/C/rpc";
                     remote := "https://avalanche.therpc.io";
                     is_hex := true; jsonrpc_body := body_evm |})
].

Definition CHAIN_CONFIGS : gmap string chain_config := list_to_map CHAIN_CONFIGS_items.

(** The [method] member of a JSON-RPC request body. *)
Definition rpc_method (body : pyval) : pyval :=
  match body with
  | PyDict items => dict_get items "method"
  | _ => PyNone
  end.

(** ** Command line *)

Module Args.
(** The namespace [parser.parse_args()] returns. *)
Record Namespace : Type := {
  chain : string;
  serve : bool;
  port : Z;
  remote : option string;
  local : option string;
}.
End Args.

(** Truth value of a string: only the empty string is false. *)
Definition str_bool (s : string) : bool :=
  match s with
  | EmptyString => false
  | String _ _ => true
  end.

(** ** Upstream replies, log records, HTTP responses *)

Inductive http_response : Type :=
| NonJson (detail : string)   (* resp.json() fails to decode the body *)
| Json (v : pyval).           (* resp.json() returns v *)

Inductive reply : Type :=
| TransportError (detail : string)   (* requests.post raises *)
| Answered (resp : http_response).

Inductive level : Type := ERROR | INFO.

Record Response : Type := {
  status : Z;
  mimetype : string;
  body : string;
}.

(** [flask.Response(body, mimetype=...)]: the status defaults to 200. *)
Definition mkResponse (b : string) (mt : string) : Response :=
  {| status := 200; mimetype := mt; body := b |}.

Inductive mode : Type :=
| Serving (port : Z)   (* app.run is serving requests *)
| Exited.              (* one-shot run finished *)

(** ** The program *)

Section Exporter.

(** The network: [post url body w] is what the endpoint at [url] answers
    to one POST of [body] in world [w], and the world afterwards. *)
Variable World : Type.
Variable post : string → pyval → World → reply * World.

(** [json.dumps(cfg, separators=(",", ":"), sort_keys=True)] *)
Variable json_dumps : chain_config → string.

(** Process state.  [chain_configs] is the module-level dict
    [CHAIN_CONFIGS]; the global [config] is an alias of one of its
    entries, held as the key of that entry. *)
Record proc : Type := {
  net : World;
  sent : list (string * pyval);     (* POSTs issued, oldest first *)
  log : list (level * string);      (* log records, oldest first *)
  chain_configs : gmap string chain_config;
  args : option Args.Namespace;     (* global args, unset before main *)
  config : option string;           (* global config, unset before main *)
}.

Definition M (A : Type) : Type := proc → result A * proc.

Definition ret {A} (a : A) : M A := λ st, (Ok a, st).

Definition bind {A B} (m : M A) (k : A → M B) : M B :=
  λ st, match m st with
        | (Ok a, st') => k a st'
        | (Raise e, st') => (Raise e, st')
        end.

Definition raise {A} (e : exn) : M A := λ st, (Raise e, st).

(** [try: body  except Exception as e: handler(e)] *)
Definition try_except {A} (body : M A) (handler : exn → M A) : M A :=
  λ st, match body st with
        | (Ok a, st') => (Ok a, st')
        | (Raise e, st') => if is_Exception e then handler e st' else (Raise e, st')
        end.

Definition lift {A} (r : result A) : M A := λ st, (r, st).

Notation "x <- m ;; k" := (bind m (λ x, k))
  (at level 100, m at next level, right associativity).
Notation "m ;;; k" := (bind m (λ _, k))
  (at level 100, right associativity).

Definition logging (lv : level) (msg : string) : M () :=
  λ st, (Ok (),
         {| net := net st; sent := sent st; log := log st ++ [(lv, msg)];
            chain_configs := chain_configs st; args := args st; config := config st |}).

(** [requests.post(url, headers=..., json=body, timeout=3)] *)
Definition requests_post (url : string) (body : pyval) : M http_response :=
  λ st,
    let '(rep, w) := post url body (net st) in
    let st' := {| net := w; sent := sent st ++ [(url, body)]; log := log st;
                  chain_configs := chain_configs st; args := args st;
                  config := config st |} in
    match rep with
    | TransportError d => (Raise (RequestException d), st')
    | Answered resp => (Ok resp, st')
    end.

(** [resp.json()] *)
Definition resp_json (resp : http_response) : result pyval :=
  match resp with
  | NonJson d => Raise (JSONDecodeError d)
  | Json v => Ok v
  end.

(** [v.get("result")]: only a dict has the method. *)
Definition get_result (v : pyval) : result pyval :=
  match v with
  | PyDict items => Ok (dict_get items "result")
  | _ => Raise (AttributeError "object has no attribute 'get'")
  end.

Definition fetch_block_height (url : string) (body : pyval) (is_hex : bool)
  : M (option Z) :=
  try_except
    (resp <- requests_post url body ;;
     j <- lift (resp_json resp) ;;
     result <- lift (get_result j) ;;
     match result with
     | PyNone => ret None
     | _ =>
         z <- lift (if is_hex then py_int_base result 16 else py_int result) ;;
         ret (Some z)
     end)
    (λ e,
      logging ERROR ("Failed to fetch block height from " +:+ url +:+ ": " +:+ exc_str e) ;;;
      ret None).

Definition calculate_metrics (chain local_url remote_url : string) (body : pyval)
    (is_hex : bool) : M string :=
  remote_block <- fetch_block_height remote_url body is_hex ;;
  local_block <- fetch_block_height local_url body is_hex ;;
  match remote_block, local_block with
  | Some remote_block, Some local_block =>
      let drift := remote_block - local_block in
      ret ("chain_block_height_local{chain=" +:+ dquote +:+ chain +:+ dquote +:+ "} "
             +:+ pretty local_block +:+ nl
           +:+ "chain_block_height_remote{chain=" +:+ dquote +:+ chain +:+ dquote +:+ "} "
             +:+ pretty remote_block +:+ nl
           +:+ "chain_block_height_drift{chain=" +:+ dquote +:+ chain +:+ dquote +:+ "} "
             +:+ pretty drift +:+ nl)
  | _, _ =>
      ret ("# Error: could not retrieve block height for chain '" +:+ chain +:+ "'" +:+ nl)
  end.

(** Reading the globals; an unset global is a [NameError]. *)
Definition get_args : M Args.Namespace :=
  λ st, match args st with
        | Some a => (Ok a, st)
        | None => (Raise (NameError "args"), st)
        end.

(** [config] dereferenced: the registry entry it aliases. *)
Definition get_config : M chain_config :=
  λ st, match config st with
        | Some k =>
            match chain_configs st !! k with
            | Some c => (Ok c, st)
            | None => (Raise (KeyError k), st)
            end
        | None => (Raise (NameError "config"), st)
        end.

(** The [/metrics] view. *)
Definition metrics : M Response :=
  a <- get_args ;;
  c <- get_config ;;
  output <- calculate_metrics (Args.chain a) (local c) (remote c) (jsonrpc_body c) (is_hex c) ;;
  logging INFO ("Exported metrics for " +:+ Args.chain a +:+ ":" +:+ nl +:+ strip output) ;;;
  ret (mkResponse (output +:+ nl) "text/plain").

Definition dump_config (chain : string) : M () :=
  λ st, match chain_configs st !! chain with
        | Some c => logging INFO ("Effective config: " +:+ json_dumps c) st
        | None => (Raise (KeyError chain), st)
        end.

(** [parser.parse_args()] on an already split command line: the
    positional argument must be one of [CHAIN_CONFIGS.keys()], otherwise
    the parser exits with status 2. *)
Definition parse_args (argv : Args.Namespace) : M Args.Namespace :=
  λ st, match chain_configs st !! Args.chain argv with
        | Some _ => (Ok argv, st)
        | None => (Raise (SystemExit 2), st)
        end.

(** [args = parser.parse_args()] *)
Definition set_args (a : Args.Namespace) : M () :=
  λ st, (Ok (),
         {| net := net st; sent := sent st; log := log st;
            chain_configs := chain_configs st;
            args := Some a; config := config st |}).

(** [config = CHAIN_CONFIGS[key]]: no copy is made, [config] names the entry. *)
Definition bind_config (key : string) : M () :=
  λ st, match chain_configs st !! key with
        | Some _ =>
            (Ok (),
             {| net := net st; sent := sent st; log := log st;
                chain_configs := chain_configs st;
                args := args st; config := Some key |})
        | None => (Raise (KeyError key), st)
        end.

(** [config[field] = value], through the alias. *)
Definition config_store (upd : chain_config → chain_config) : M () :=
  λ st, match config st with
        | Some k =>
            match chain_configs st !! k with
            | Some c =>
                (Ok (),
                 {| net := net st; sent := sent st; log := log st;
                    chain_configs := <[k := upd c]> (chain_configs st);
                    args := args st; config := config st |})
            | None => (Raise (KeyError k), st)
            end
        | None => (Raise (NameError "config"), st)
        end.

Definition set_remote (url : string) (c : chain_config) : chain_config :=
  {| local := local c; remote := url; is_hex := is_hex c; jsonrpc_body := jsonrpc_body c |}.

Definition set_local (url : string) (c : chain_config) : chain_config :=
  {| local := url; remote := remote c; is_hex := is_hex c; jsonrpc_body := jsonrpc_body c |}.

Definition main (argv : Args.Namespace) : M mode :=
  a <- parse_args argv ;;
  set_args a ;;;
  bind_config (Args.chain a) ;;;
  match Args.remote a with
  | Some url => if str_bool url then config_store (set_remote url) else ret ()
  | None => ret ()
  end ;;;
  match Args.local a with
  | Some url => if str_bool url then config_store (set_local url) else ret ()
  | None => ret ()
  end ;;;
  dump_config (Args.chain a) ;;;
  if Args.serve a then
    logging INFO ("Starting HTTP server for " +:+ Args.chain a +:+ " on :"
                  +:+ pretty (Args.port a)) ;;;
    ret (Serving (Args.port a))
  else
    c <- get_config ;;
    output <- calculate_metrics (Args.chain a) (local c) (remote c) (jsonrpc_body c)
                (is_hex c) ;;
    logging INFO ("Exported metrics for " +:+ Args.chain a +:+ ":" +:+ nl +:+ strip output) ;;;
    ret Exited.

(** The state of a freshly started interpreter that has loaded the module. *)
Definition fresh (w : World) : proc :=
  {| net := w; sent := []; log := []; chain_configs := CHAIN_CONFIGS;
     args := None; config := None |}.

End Exporter.

Arguments net {World} p.
Arguments sent {World} p.
Arguments log {World} p.
Arguments chain_configs {World} p.
Arguments args {World} p.
Arguments config {World} p.

Arguments ret {World A} a.
Arguments bind {World A B} m k.

(** ** Scripted networks, to run the program on concrete inputs *)

Module Mock.

(** A network whose answer depends on the URL only. *)
Definition by_url (table : string → reply) : string → pyval → unit → reply * unit :=
  λ url _ w, (table url, w).

(** A network that plays back a list of answers, one per request, and
    refuses connections once the list is used up. *)
Definition playback : string → pyval → list reply → reply * list reply :=
  λ _ _ w, match w with
           | r :: rest => (r, rest)
           | [] => (TransportError "connection refused", [])
           end.

Definition no_dumps : chain_config → string := λ _, "{}".

Definition result_is (v : pyval) : reply := Answered (Json (PyDict [("result", v)])).

End Mock.

(** ** Text helpers used to state the properties *)

#[local] Arguments String.append !_ _ / : simpl nomatch.

Definition newline : ascii := "010"%char.

(** The lines of a text: maximal runs without a newline, each ended by a
    newline or by the end of the text. *)
Fixpoint lines (s : string) : list string :=
  match s with
  | EmptyString => []
  | String c rest =>
      if Ascii.eqb c newline then EmptyString :: lines rest
      else match lines rest with
           | [] => [String c EmptyString]
           | l :: ls => String c l :: ls
           end
  end.

Fixpoint no_newline (s : string) : bool :=
  match s with
  | EmptyString => true
  | String c rest => negb (Ascii.eqb c newline) && no_newline rest
  end.

Fixpoint unlines (ls : list string) : string :=
  match ls with
  | [] => EmptyString
  | l :: rest => l +:+ nl +:+ unlines rest
  end.

(** [t] occurs in [s] as a contiguous piece. *)
Definition occurs (t s : string) : Prop := ∃ pre suf, s = pre +:+ t +:+ suf.

(** A Prometheus sample line of gauge [name] with the one label [chain]. *)
Definition gauge_line (name chain : string) (v : Z) : string :=
  name +:+ "{chain=" +:+ dquote +:+ chain +:+ dquote +:+ "} " +:+ pretty v.

Definition is_gauge_line (line : string) : bool :=
  String.prefix "chain_block_height_" line.

Definition error_line (chain : string) : string :=
  "# Error: could not retrieve block height for chain '" +:+ chain +:+ "'".

(** The configuration in force after the command-line overrides. *)
Definition override (o : option string)
    (set : string → chain_config → chain_config) (c : chain_config) : chain_config :=
  match o with
  | Some url => if str_bool url then set url c else c
  | None => c
  end.

Definition effective_config (a : Args.Namespace) (c : chain_config) : chain_config :=
  override (Args.local a) set_local (override (Args.remote a) set_remote c).

Definition exported_message (chain output : string) : string :=
  "Exported metrics for " +:+ chain +:+ ":" +:+ nl +:+ strip output.

(** ** Observations on a run

    What the network answers next, the states a call leaves behind, and
    the outcome of the [try] block of [fetch_block_height], used to state
    the properties below. *)

Section Observations.

Context {World : Type}.
Variable post : string → pyval → World → reply * World.
Variable json_dumps : chain_config → string.

(** The answer the network gives to the next POST to [url]. *)
Definition answer (url : string) (body : pyval) (st : proc World) : reply :=
  fst (post url body (net st)).

(** The state once that POST has been answered. *)
Definition posted (url : string) (body : pyval) (st : proc World) : proc World :=
  {| net := snd (post url body (net st)); sent := sent st ++ [(url, body)];
     log := log st; chain_configs := chain_configs st;
     args := args st; config := config st |}.

Definition logged (lv : level) (msg : string) (st : proc World) : proc World :=
  {| net := net st; sent := sent st; log := log st ++ [(lv, msg)];
     chain_configs := chain_configs st; args := args st; config := config st |}.

Definition failure_message (url : string) (e : exn) : string :=
  "Failed to fetch block height from " +:+ url +:+ ": " +:+ exc_str e.

(** The [result] member of a JSON object answer ([PyNone] when the object
    has none); [None] when the answer is not a JSON object at all. *)
Definition result_of (rep : reply) : option pyval :=
  match rep with
  | Answered (Json (PyDict items)) => Some (dict_get items "result")
  | _ => None
  end.

Definition decode (is_hex : bool) (v : pyval) : result Z :=
  if is_hex then py_int_base v 16 else py_int v.

(** The body of the [try] block as a function of the answer: a height,
    the silent [None], or the exception that reaches the handler. *)
Definition outcome (rep : reply) (is_hex : bool) : result (option Z) :=
  match rep with
  | TransportError d => Raise (RequestException d)
  | Answered (NonJson d) => Raise (JSONDecodeError d)
  | Answered (Json v) =>
      match get_result v with
      | Raise e => Raise e
      | Ok PyNone => Ok None
      | Ok r =>
          match decode is_hex r with
          | Ok z => Ok (Some z)
          | Raise e => Raise e
          end
      end
  end.

(** The module globals a request handler reads. *)
Definition same_globals (st st' : proc World) : Prop :=
  chain_configs st' = chain_configs st ∧ args st' = args st ∧ config st' = config st.

(** The state [main] leaves behind once the globals are set, the
    overrides applied and the configuration logged. *)
Definition started (a : Args.Namespace) (c : chain_config) (st : proc World)
  : proc World :=
  {| net := net st; sent := sent st;
     log := log st ++ [(INFO, "Effective config: " +:+ json_dumps (effective_config a c))];
     chain_configs := <[Args.chain a := effective_config a c]> (chain_configs st);
     args := Some a; config := Some (Args.chain a) |}.

Definition with_configs (m : gmap string chain_config) (st : proc World)
  : proc World :=
  {| net := net st; sent := sent st; log := log st; chain_configs := m;
     args := args st; config := config st |}.

End Observations.




(** ** Kinds of upstream answers *)

Definition transport_error (rep : reply) : bool :=
  match rep with
  | TransportError _ => true
  | _ => false
  end.

Definition non_json_body (rep : reply) : bool :=
  match rep with
  | Answered (NonJson _) => true
  | _ => false
  end.

(** A JSON body that is not an object (an array, a string, a number ...). *)
Definition json_not_object (rep : reply) : bool :=
  match rep with
  | Answered (Json (PyDict _)) => false
  | Answered (Json _) => true
  | _ => false
  end.

(** A JSON object with no [result] member, or with [result] null. *)
Definition json_object_without_result (rep : reply) : bool :=
  match result_of rep with
  | Some PyNone => true
  | _ => false
  end.

(** A JSON object whose [result] is present but is rejected by [int]. *)
Definition undecodable_result (rep : reply) (is_hex : bool) : bool :=
  match result_of rep with
  | Some PyNone | None => false
  | Some v =>
      match decode is_hex v with
      | Ok _ => false
      | Raise _ => true
      end
  end.

Definition logged_failure (rep : reply) (is_hex : bool) : bool :=
  transport_error rep || non_json_body rep || json_not_object rep
  || undecodable_result rep is_hex.

(** ** Numbers as [result] *)

(** A finite float [S754_finite s m e] stands for [(-1)^s * m * 2^e].
    [float_equals f z]: the value of [f] is the integer [z]. *)
Definition float_equals (f : spec_float) (z : Z) : Prop :=
  match f with
  | S754_zero _ => z = 0
  | S754_finite s m e =>
      (if s then - Z.pos m else Z.pos m) * 2 ^ Z.max e 0 = z * 2 ^ Z.max (- e) 0
  | _ => False
  end.

(** [float_truncates f z]: [z] is the value of [f] rounded toward zero. *)
Definition float_truncates (f : spec_float) (z : Z) : Prop :=
  match f with
  | S754_zero _ => z = 0
  | S754_finite s m e =>
      (if s then z ≤ 0 else 0 ≤ z)
      ∧ Z.abs z * 2 ^ Z.max (- e) 0 ≤ Z.pos m * 2 ^ Z.max e 0
      ∧ Z.pos m * 2 ^ Z.max e 0 < (Z.abs z + 1) * 2 ^ Z.max (- e) 0
  | _ => False
  end.

(** The JSON number [v] has the integer value [z]. *)
Definition number_equals (v : pyval) (z : Z) : Prop :=
  match v with
  | PyInt n => n = z
  | PyFloat f => float_equals f z
  | _ => False
  end.

(** ** The registry *)

Definition chain_ids : list string :=
  ["sol"; "eth"; "bsc"; "base"; "sonic"; "bera"; "story"; "pulse"; "avalanchego"].

(** ** Runs on scripted networks *)

Module Demo.

Definition local_url : string := "http://127.0.0.1:8545".
Definition remote_url : string := "https://ethereum.llamarpc.com".

Definition fetch := fetch_block_height (list reply) Mock.playback.
Definition calc := calculate_metrics (list reply) Mock.playback.

(** Remote answers 105, then local answers 100. *)
Definition both_up : proc (list reply) :=
  fresh _ [Mock.result_is (PyStr "0x69"); Mock.result_is (PyStr "0x64")].
Definition both_up1 : proc (list reply) :=
  snd (fetch remote_url body_evm true both_up).
Definition both_up2 : proc (list reply) :=
  snd (fetch local_url body_evm true both_up1).

(** Remote answers 105, then the local node refuses the connection. *)
Definition local_down : proc (list reply) :=
  fresh _ [Mock.result_is (PyStr "0x69"); TransportError "connection refused"].
Definition local_down1 : proc (list reply) :=
  snd (fetch remote_url body_evm true local_down).
Definition local_down2 : proc (list reply) :=
  snd (fetch local_url body_evm true local_down1).

(** One answer, given as the [result] member of a JSON object. *)
Definition answering (v : pyval) : proc (list reply) := fresh _ [Mock.result_is v].

(** A JSON-RPC error object: no [result] member. *)
Definition rpc_error : proc (list reply) :=
  fresh _ [Answered (Json (PyDict [("jsonrpc", PyStr "2.0"); ("id", PyInt 1);
                                   ("error", PyDict [("code", PyInt (-32601))])]))].

Definition not_json : proc (list reply) :=
  fresh _ [Answered (NonJson "Expecting value: line 1 column 1 (char 0)")].

(** 3.5 as a float: 7 * 2^-1. *)
Definition three_and_a_half : spec_float := S754_finite false 7 (-1).

(** Every endpoint is unreachable. *)
Definition all_down : string → pyval → unit → reply * unit :=
  Mock.by_url (λ _, TransportError "connection refused").

Definition serve_eth : Args.Namespace :=
  {| Args.chain := "eth"; Args.serve := true; Args.port := 9100;
     Args.remote := None; Args.local := None |}.

Definition serving_eth : proc unit :=
  snd (main unit all_down Mock.no_dumps serve_eth (fresh _ ())).

End Demo.

(** ** Further observations: a whole computation, a sequence of requests *)

(** The height one call of [fetch_block_height] returns for an answer. *)
Definition height_of (rep : reply) (is_hex : bool) : option Z :=
  match outcome rep is_hex with
  | Ok o => o
  | Raise _ => None
  end.

(** The record one call of [fetch_block_height] logs for an answer. *)
Definition failure_records (url : string) (rep : reply) (is_hex : bool)
  : list (level * string) :=
  match outcome rep is_hex with
  | Ok _ => []
  | Raise e => [(ERROR, failure_message url e)]
  end.

(** The text for the two heights: three gauge lines, or the comment line. *)
Definition render (chain : string) (remote_block local_block : option Z) : string :=
  match remote_block, local_block with
  | Some r, Some l =>
      unlines [gauge_line "chain_block_height_local" chain l;
               gauge_line "chain_block_height_remote" chain r;
               gauge_line "chain_block_height_drift" chain (r - l)]
  | _, _ => error_line chain +:+ nl
  end.




Section Server.

Context {World : Type}.
Variable post : string → pyval → World → reply * World.



(** The state after the remote and then the local request. *)
Definition after_round (local_url remote_url : string) (body : pyval) (is_hex : bool)
    (st : proc World) : proc World :=
  let remote_answer := post remote_url body (net st) in
  let local_answer := post local_url body (snd remote_answer) in
  {| net := snd local_answer;
     sent := sent st ++ [(remote_url, body); (local_url, body)];
     log := log st ++ failure_records remote_url (fst remote_answer) is_hex
                   ++ failure_records local_url (fst local_answer) is_hex;
     chain_configs := chain_configs st; args := args st; config := config st |}.

(** The text of that computation. *)
Definition round_text (chain local_url remote_url : string) (body : pyval)
    (is_hex : bool) (st : proc World) : string :=
  let remote_answer := post remote_url body (net st) in
  let local_answer := post local_url body (snd remote_answer) in
  render chain (height_of (fst remote_answer) is_hex)
    (height_of (fst local_answer) is_hex).

End Server.

(** ** Further runs on scripted networks *)

Module Scenario.

(** Serve mode for sol with the remote URL overridden and the local one
    left alone. *)
Definition serve_sol : Args.Namespace :=
  {| Args.chain := "sol"; Args.serve := true; Args.port := 9200;
     Args.remote := Some "https://rpc.example.org"; Args.local := None |}.


(** A chain the registry does not have. *)
Definition serve_btc : Args.Namespace :=
  {| Args.chain := "btc"; Args.serve := true; Args.port := 9100;
     Args.remote := None; Args.local := None |}.

Definition sol_entry : chain_config :=
  {| local := "http://127.0.0.1:8899"; remote := "https://api.mainnet-beta.solana.com";
     is_hex := false; jsonrpc_body := body_sol |}.

(** First round: 105 and 100.  Second round: the remote is down. *)
Definition two_rounds : list reply :=
  [Mock.result_is (PyInt 105); Mock.result_is (PyInt 100);
   TransportError "connection refused"; Mock.result_is (PyInt 101)].

Definition start := main (list reply) Mock.playback Mock.no_dumps.


End Scenario.

(** * Properties *)

Example int_hex_prefixed : py_int_base (PyStr "0x10") 16 = Ok 16.
Proof. reflexivity. Qed.
Example int_decimal : py_int (PyStr "16") = Ok 16.
Proof. reflexivity. Qed.
Example int_negative : py_int (PyStr "-5") = Ok (-5).
Proof. reflexivity. Qed.
Example int_hex_underscore : py_int_base (PyStr "0x_1_0") 16 = Ok 16.
Proof. reflexivity. Qed.
Example int_hex_bare_prefix : PyLong.FromString "0x" 16 = None.
Proof. reflexivity. Qed.
Example int_double_underscore : PyLong.FromString "1__0" 10 = None.
Proof. reflexivity. Qed.
Example int_padded : PyLong.FromString " 007 " 10 = Some 7.
Proof. reflexivity. Qed.
Example int_prefix_base10 : PyLong.FromString "0x10" 10 = None.
Proof. reflexivity. Qed.

Lemma app_assoc_s (a b c : string) : (a +:+ b) +:+ c = a +:+ (b +:+ c).
Proof. induction a as [|x a IH]; simpl; [done | by rewrite IH]. Qed.

Lemma no_newline_app (a b : string) :
  no_newline (a +:+ b) = no_newline a && no_newline b.
Proof.
  induction a as [|x a IH]; simpl; [done |].
  rewrite IH. by destruct (Ascii.eqb x newline).
Qed.

Lemma lines_line (l rest : string) :
  no_newline l = true → lines (l +:+ nl +:+ rest) = l :: lines rest.
Proof.
  induction l as [|x l IH]; [done |].
  change (String x l +:+ nl +:+ rest) with (String x (l +:+ nl +:+ rest)).
  cbn [lines no_newline].
  destruct (Ascii.eqb x newline); [done |].
  intros H. by rewrite (IH H).
Qed.

Lemma lines_unlines (ls : list string) :
  forallb no_newline ls = true → lines (unlines ls) = ls.
Proof.
  induction ls as [|l ls IH]; [done |].
  cbn [unlines forallb].
  intros [Hl Hls]%andb_prop. rewrite lines_line by done. by rewrite IH.
Qed.




(** ** What one call of [fetch_block_height] does *)

Section Fetcher.

Context {World : Type}.
Variable post : string → pyval → World → reply * World.

#[local] Abbreviation fetch := (fetch_block_height World post).

Lemma decode_is_Exception (is_hex : bool) (v : pyval) (e : exn) :
  decode is_hex v = Raise e → is_Exception e = true.
Proof.
  unfold decode, py_int_base, py_int, PyLong.FromDouble.
  intros H. repeat case_match; by simplify_eq.
Qed.

Lemma outcome_is_Exception (rep : reply) (is_hex : bool) (e : exn) :
  outcome rep is_hex = Raise e → is_Exception e = true.
Proof.
  unfold outcome, get_result. intros H.
  repeat case_match; simplify_eq; try done; by eapply decode_is_Exception.
Qed.

Lemma fetch_block_height_run (url : string) (body : pyval) (is_hex : bool)
    (st : proc World) :
  fetch url body is_hex st =
  match outcome (answer post url body st) is_hex with
  | Ok o => (Ok o, posted post url body st)
  | Raise e => (Ok None, logged ERROR (failure_message url e) (posted post url body st))
  end.
Proof.
  destruct (outcome (answer post url body st) is_hex) as [o | e] eqn:Hout.
  - unfold fetch_block_height, try_except, bind, requests_post, lift, ret.
    unfold outcome, answer in Hout. unfold posted.
    destruct (post url body (net st)) as [rep w]; simpl in *.
    destruct rep as [d | [d | v]]; simpl in *; try done.
    destruct (get_result v) as [r | e]; simpl in *; try done.
    fold (decode is_hex r).
    destruct r; simpl in *; simplify_eq; try done;
      destruct (decode is_hex _); by simplify_eq.
  - pose proof (outcome_is_Exception _ _ _ Hout) as Hexc.
    unfold fetch_block_height, try_except, bind, requests_post, lift, ret.
    unfold outcome, answer in Hout. unfold posted, logged, failure_message.
    destruct (post url body (net st)) as [rep w]; simpl in *.
    destruct rep as [d | [d | v]]; simpl in *; simplify_eq; try done.
    destruct (get_result v) as [r | e']; simpl in *; simplify_eq.
    + fold (decode is_hex r).
      destruct r; simpl in *; simplify_eq; try done;
        destruct (decode is_hex _); simplify_eq; simpl; by rewrite Hexc.
    + by rewrite Hexc.
Qed.

End Fetcher.

(** ** Decoding lemmas *)





Lemma decode_hex_string (v : pyval) (z : Z) :
  decode true v = Ok z → ∃ s, v = PyStr s.
Proof. destruct v; simpl; intros; simplify_eq; eauto. Qed.







Lemma outcome_kinds (rep : reply) (is_hex : bool) :
  match outcome rep is_hex with
  | Raise _ =>
      logged_failure rep is_hex = true ∧ json_object_without_result rep = false
  | Ok None =>
      logged_failure rep is_hex = false ∧ json_object_without_result rep = true
  | Ok (Some z) =>
      logged_failure rep is_hex = false ∧ json_object_without_result rep = false
      ∧ ∃ v, result_of rep = Some v ∧ decode is_hex v = Ok z
  end.
Proof.
  unfold logged_failure, undecodable_result, json_object_without_result, outcome.
  destruct rep as [d | [d | v]]; simpl; [done | done |].
  destruct v as [| b | n | f | s | l | items]; simpl; try done.
  destruct (dict_get items "result") as [| b | n | f | s | l | d] eqn:Hr; [done | ..].
  all: destruct (decode is_hex _) eqn:Hd; simpl; eauto 6.
Qed.

Section FetcherClaims.

Context {World : Type}.
Variable post : string → pyval → World → reply * World.

#[local] Abbreviation fetch := (fetch_block_height World post).


(** C4.  [fetch_block_height] never raises: whatever the endpoint does,
    the call returns a value.  On a transport error, on a body that is
    not JSON and on a JSON body without a [result] member (not an object,
    or an object lacking it) the value returned is [None]. *)
Theorem fetch_block_height_never_raises (url : string) (body : pyval)
    (is_hex : bool) (st : proc World) :
  (∃ o, fst (fetch url body is_hex st) = Ok o)
  ∧ (transport_error (answer post url body st)
     || non_json_body (answer post url body st)
     || json_not_object (answer post url body st)
     || json_object_without_result (answer post url body st) = true →
     fst (fetch url body is_hex st) = Ok None).
Proof.
  rewrite fetch_block_height_run.
  pose proof (outcome_kinds (answer post url body st) is_hex) as Hk.
  unfold logged_failure in Hk.
  destruct (outcome (answer post url body st) is_hex) as [[z |] | e]; simpl.
  - split; [eauto |]. destruct Hk as (Hl & Hw & _).
    apply orb_false_elim in Hl as [Hl _]. rewrite Hl, Hw. done.
  - split; [eauto | done].
  - split; [eauto | done].
Qed.

(** C7, as amended.  A call that fails on a transport error, on a body
    that is not JSON, on a JSON body that is not an object, or on a
    [result] that [int] rejects, returns [None] and appends exactly one
    ERROR record, whose message contains the URL.  A call answered by a
    JSON object without [result] returns [None] and logs nothing.  A
    call that returns a height logs nothing. *)
Theorem fetch_block_height_logging (url : string) (body : pyval)
    (is_hex : bool) (st : proc World) :
  (logged_failure (answer post url body st) is_hex = true →
     fst (fetch url body is_hex st) = Ok None
     ∧ ∃ msg, log (snd (fetch url body is_hex st)) = log st ++ [(ERROR, msg)]
              ∧ occurs url msg)
  ∧ (json_object_without_result (answer post url body st) = true →
     fst (fetch url body is_hex st) = Ok None
     ∧ log (snd (fetch url body is_hex st)) = log st)
  ∧ (∀ z, fst (fetch url body is_hex st) = Ok (Some z) →
     log (snd (fetch url body is_hex st)) = log st).
Proof.
  rewrite fetch_block_height_run.
  pose proof (outcome_kinds (answer post url body st) is_hex) as Hk.
  destruct (outcome (answer post url body st) is_hex) as [[z |] | e]; simpl.
  - destruct Hk as (Hl & Hw & _). rewrite Hl, Hw. done.
  - destruct Hk as (Hl & Hw). rewrite Hl. done.
  - destruct Hk as (Hl & Hw). rewrite Hw. split; [| done].
    intros _. split; [done |]. eexists. split; [done |].
    exists "Failed to fetch block height from ", (": " +:+ exc_str e).
    done.
Qed.

End FetcherClaims.

Lemma FromDouble_truncates (f : spec_float) (z : Z) :
  PyLong.FromDouble f = Ok z → float_truncates f z.
Proof.
  destruct f as [sg | sg | | sg m e]; simpl; intros H; simplify_eq; [done |].
  destruct (decide (0 ≤ e)) as [He | He].
  - rewrite Z.shiftl_mul_pow2 by done.
    rewrite (Z.max_l e 0), (Z.max_r (- e) 0) by lia.
    assert (0 < 2 ^ e) by (apply Z.pow_pos_nonneg; lia).
    destruct sg; split; try nia.
  - rewrite Z.shiftl_div_pow2 by lia.
    rewrite (Z.max_r e 0), (Z.max_l (- e) 0) by lia.
    assert (0 < 2 ^ (- e)) as Hd by (apply Z.pow_pos_nonneg; lia).
    pose proof (Z.div_pos (Z.pos m) (2 ^ (- e)) ltac:(lia) Hd) as Hq.
    pose proof (Z.mul_div_le (Z.pos m) (2 ^ (- e)) Hd) as Hlo.
    pose proof (Z.mul_succ_div_gt (Z.pos m) (2 ^ (- e)) Hd) as Hhi.
    destruct sg; split; try nia.
Qed.

Section NumericClaims.

Context {World : Type}.
Variable post : string → pyval → World → reply * World.

#[local] Abbreviation fetch := (fetch_block_height World post).


(** C10, as amended.  When [result] is a JSON integer, the call returns
    that integer if [is_hex] is false and [None] if it is true.  When
    [result] is a JSON real number (a float), the call returns [None] if
    [is_hex] is true; if [is_hex] is false it returns the number rounded
    toward zero, and [None] for an infinity or a NaN. *)
Theorem fetch_block_height_numeric_result (url : string) (body : pyval)
    (st : proc World) (v : pyval) :
  result_of (answer post url body st) = Some v →
  (∀ n, v = PyInt n →
     fst (fetch url body false st) = Ok (Some n)
     ∧ fst (fetch url body true st) = Ok None)
  ∧ (∀ f, v = PyFloat f →
     fst (fetch url body true st) = Ok None
     ∧ match f with
       | S754_infinity _ | S754_nan => fst (fetch url body false st) = Ok None
       | _ => ∃ z, fst (fetch url body false st) = Ok (Some z)
                   ∧ float_truncates f z
       end).
Proof.
  intros Hv. rewrite !fetch_block_height_run.
  destruct (answer post url body st) as [d | [d | j]]; simplify_eq/=.
  destruct j as [| | | | | | items]; simplify_eq/=.
  split.
  - intros n ->. done.
  - intros f ->. split; [done |].
    destruct f as [sg | sg | | sg m e]; simpl; try done.
    + exists 0. done.
    + eexists. split; [done |]. by apply (FromDouble_truncates (S754_finite sg m e)).
Qed.

End NumericClaims.

(** ** The calculator, the view and the start-up *)

Section Calculator.

Context {World : Type}.
Variable post : string → pyval → World → reply * World.
Variable json_dumps : chain_config → string.

#[local] Abbreviation fetch := (fetch_block_height World post).
#[local] Abbreviation calc := (calculate_metrics World post).

Lemma fetch_block_height_state (url : string) (body : pyval) (is_hex : bool)
    (st : proc World) :
  ∃ o st', fetch url body is_hex st = (Ok o, st')
           ∧ sent st' = sent st ++ [(url, body)]
           ∧ same_globals st st'.
Proof.
  rewrite fetch_block_height_run.
  destruct (outcome _ _); eexists _, _; (split; [done |]); done.
Qed.

Lemma calculate_metrics_run (chain local_url remote_url : string) (body : pyval)
    (is_hex : bool) (st : proc World) :
  ∃ rb lb st1 st2,
    fetch remote_url body is_hex st = (Ok rb, st1)
    ∧ fetch local_url body is_hex st1 = (Ok lb, st2)
    ∧ sent st2 = sent st ++ [(remote_url, body); (local_url, body)]
    ∧ same_globals st st2
    ∧ calc chain local_url remote_url body is_hex st
      = (Ok match rb, lb with
            | Some r, Some l =>
                unlines [gauge_line "chain_block_height_local" chain l;
                         gauge_line "chain_block_height_remote" chain r;
                         gauge_line "chain_block_height_drift" chain (r - l)]
            | _, _ => error_line chain +:+ nl
            end, st2).
Proof.
  destruct (fetch_block_height_state remote_url body is_hex st)
    as (rb & st1 & Hr & Hs1 & Hg1 & Ha1 & Hc1).
  destruct (fetch_block_height_state local_url body is_hex st1)
    as (lb & st2 & Hl & Hs2 & Hg2 & Ha2 & Hc2).
  exists rb, lb, st1, st2. split; [done |]. split; [done |].
  split; [by rewrite Hs2, Hs1, <- app_assoc |].
  split; [unfold same_globals; by rewrite Hg2, Hg1, Ha2, Ha1, Hc2, Hc1 |].
  unfold calculate_metrics, bind. rewrite Hr, Hl.
  destruct rb as [r |], lb as [l |];
    unfold ret, unlines, gauge_line, error_line;
    rewrite ?app_assoc_s; reflexivity.
Qed.

End Calculator.

Section CalculatorClaims.

Context {World : Type}.
Variable post : string → pyval → World → reply * World.

#[local] Abbreviation fetch := (fetch_block_height World post).
#[local] Abbreviation calc := (calculate_metrics World post).


(** C2.  When the remote fetch or the local fetch returns [None],
    [calculate_metrics] returns the one comment line
    [# Error: could not retrieve block height for chain '<chain>'] and
    nothing else: no gauge line is emitted, not even for the height that
    was fetched. *)
Theorem calculate_metrics_error_line (chain local_url remote_url : string)
    (body : pyval) (is_hex : bool) (st st1 st2 : proc World) (rb lb : option Z) :
  fetch remote_url body is_hex st = (Ok rb, st1) →
  fetch local_url body is_hex st1 = (Ok lb, st2) →
  rb = None ∨ lb = None →
  calc chain local_url remote_url body is_hex st
  = (Ok ("# Error: could not retrieve block height for chain '" +:+ chain +:+ "'" +:+ nl),
     st2)
  ∧ (no_newline chain = true →
     lines ("# Error: could not retrieve block height for chain '" +:+ chain +:+ "'" +:+ nl)
     = ["# Error: could not retrieve block height for chain '" +:+ chain +:+ "'"]
     ∧ List.filter is_gauge_line
         (lines ("# Error: could not retrieve block height for chain '"
                 +:+ chain +:+ "'" +:+ nl)) = []).
Proof.
  intros Hr Hl Hnone.
  destruct (calculate_metrics_run post chain local_url remote_url body is_hex st)
    as (rb' & lb' & st1' & st2' & Hr' & Hl' & _ & _ & Hrun).
  rewrite Hr in Hr'. simplify_eq. rewrite Hl in Hl'. simplify_eq.
  split.
  - rewrite Hrun. unfold error_line. rewrite ?app_assoc_s.
    destruct Hnone as [-> | ->]; [done | by destruct rb'].
  - intros Hc.
    assert (lines (error_line chain +:+ nl +:+ "") = [error_line chain]) as Hlines.
    { apply (lines_unlines [error_line chain]). cbn [forallb].
      unfold error_line. rewrite !no_newline_app, Hc. done. }
    unfold error_line in Hlines. rewrite ?app_assoc_s in Hlines.
    change (nl +:+ "") with nl in Hlines.
    rewrite Hlines. done.
Qed.

End CalculatorClaims.

Section Delivery.

Context {World : Type}.
Variable post : string → pyval → World → reply * World.
Variable json_dumps : chain_config → string.

#[local] Abbreviation calc := (calculate_metrics World post).
#[local] Abbreviation view := (metrics World post).
#[local] Abbreviation start := (main World post json_dumps).


Lemma override_run {A : Type} (o : option string)
    (set : string → chain_config → chain_config) (k : string) (c : chain_config)
    (K : M World A) (st : proc World) :
  config st = Some k → chain_configs st !! k = Some c →
  bind match o with
       | Some url => if str_bool url then config_store World (set url) else ret ()
       | None => ret ()
       end (λ _, K) st
  = K (with_configs (<[k := override o set c]> (chain_configs st)) st).
Proof.
  intros Hc Hl. unfold bind, override, with_configs.
  assert (st = {| net := net st; sent := sent st; log := log st;
                  chain_configs := <[k := c]> (chain_configs st);
                  args := args st; config := config st |}) as Hid.
  { rewrite (insert_id _ _ _ Hl). by destruct st. }
  destruct o as [[| x url] |]; cbn [str_bool].
  - unfold ret. by rewrite <- Hid.
  - unfold config_store. by rewrite Hc, Hl.
  - unfold ret. by rewrite <- Hid.
Qed.

Lemma main_run (a : Args.Namespace) (c : chain_config) (st : proc World) :
  chain_configs st !! Args.chain a = Some c →
  start a st =
  if Args.serve a then
    (Ok (Serving (Args.port a)),
     logged INFO ("Starting HTTP server for " +:+ Args.chain a +:+ " on :"
                  +:+ pretty (Args.port a)) (started json_dumps a c st))
  else
    let e := effective_config a c in
    match calc (Args.chain a) (local e) (remote e) (jsonrpc_body e) (is_hex e)
            (started json_dumps a c st) with
    | (Ok out, st') =>
        (Ok Exited, logged INFO (exported_message (Args.chain a) out) st')
    | (Raise x, st') => (Raise x, st')
    end.
Proof.
  intros Hl. unfold main.
  unfold bind at 1. unfold parse_args. rewrite Hl.
  unfold bind at 1. unfold set_args.
  unfold bind at 1. unfold bind_config. cbn [chain_configs]. rewrite Hl.
  cbn [net sent log chain_configs args config].
  rewrite (override_run (Args.remote a) set_remote (Args.chain a) c) by done.
  unfold with_configs at 1. cbn [net sent log chain_configs args config].
  rewrite (override_run (Args.local a) set_local (Args.chain a)
             (override (Args.remote a) set_remote c))
    by (try done; cbn [chain_configs]; by rewrite lookup_insert_eq).
  unfold with_configs. cbn [net sent log chain_configs args config].
  rewrite insert_insert_eq. fold (effective_config a c).
  unfold bind at 1. unfold dump_config. cbn [chain_configs].
  rewrite lookup_insert_eq.
  unfold logging at 1. cbn [net sent log chain_configs args config].
  fold (started json_dumps a c st).
  destruct (Args.serve a); [done |].
  unfold bind at 1. unfold get_config.
  replace (config (started json_dumps a c st)) with (Some (Args.chain a)) by done.
  replace (chain_configs (started json_dumps a c st) !! Args.chain a)
    with (Some (effective_config a c))
    by (unfold started; cbn [chain_configs]; by rewrite lookup_insert_eq).
  unfold bind at 1. cbn zeta.
  destruct (calc _ _ _ _ _ _) as [[out | x] st']; done.
Qed.

End Delivery.

(** C5.  The registry is a closed set of nine chains.  The entry of sol,
    the one chain that is not EVM-compatible, uses the decimal convention
    ([is_hex] false) with method getBlockHeight; each of the other eight
    uses the hexadecimal convention ([is_hex] true) with method
    eth_blockNumber. *)
Theorem registry_conventions (c : string) (cfg : chain_config) :
  CHAIN_CONFIGS !! c = Some cfg →
  c ∈ chain_ids
  ∧ length chain_ids = 9%nat
  ∧ size CHAIN_CONFIGS = 9%nat
  ∧ (c = "sol" →
     is_hex cfg = false ∧ rpc_method (jsonrpc_body cfg) = PyStr "getBlockHeight")
  ∧ (c ≠ "sol" →
     is_hex cfg = true ∧ rpc_method (jsonrpc_body cfg) = PyStr "eth_blockNumber").
Proof.
  intros Hl. apply elem_of_list_to_map_2 in Hl.
  split; [| split; [done | split; [by vm_compute |]]].
  - unfold CHAIN_CONFIGS_items, chain_ids in *.
    repeat (apply elem_of_cons in Hl as [Hl | Hl];
            [simplify_eq; set_solver |]).
    by apply elem_of_nil in Hl.
  - unfold CHAIN_CONFIGS_items in Hl.
    repeat (apply elem_of_cons in Hl as [Hl | Hl];
            [simplify_eq; split; [done | try done; intros; done] |]).
    by apply elem_of_nil in Hl.
Qed.

Lemma registry_keys (c : string) :
  c ∈ chain_ids → is_Some (CHAIN_CONFIGS !! c).
Proof.
  unfold chain_ids. intros Hc.
  repeat (apply elem_of_cons in Hc as [-> | Hc]; [by vm_compute; eexists |]).
  by apply elem_of_nil in Hc.
Qed.

Section DeliveryClaims.

Context {World : Type}.
Variable post : string → pyval → World → reply * World.
Variable json_dumps : chain_config → string.

#[local] Abbreviation calc := (calculate_metrics World post).
#[local] Abbreviation view := (metrics World post).
#[local] Abbreviation start := (main World post json_dumps).





End DeliveryClaims.


Example drift_is_five :
  fst (Demo.calc "eth" Demo.local_url Demo.remote_url body_evm true Demo.both_up)
  = Ok ("chain_block_height_local{chain=" +:+ dquote +:+ "eth" +:+ dquote +:+ "} 100" +:+ nl
        +:+ "chain_block_height_remote{chain=" +:+ dquote +:+ "eth" +:+ dquote +:+ "} 105" +:+ nl
        +:+ "chain_block_height_drift{chain=" +:+ dquote +:+ "eth" +:+ dquote +:+ "} 5" +:+ nl).
Proof. vm_compute. reflexivity. Qed.

Lemma calculate_metrics_error_line_witness :
  Demo.fetch Demo.remote_url body_evm true Demo.local_down
  = (Ok (Some 105), Demo.local_down1)
  ∧ Demo.fetch Demo.local_url body_evm true Demo.local_down1 = (Ok None, Demo.local_down2)
  ∧ Demo.calc "eth" Demo.local_url Demo.remote_url body_evm true Demo.local_down
    = (Ok ("# Error: could not retrieve block height for chain '" +:+ "eth" +:+ "'" +:+ nl),
       Demo.local_down2)
  ∧ (no_newline "eth" = true →
     lines ("# Error: could not retrieve block height for chain '" +:+ "eth" +:+ "'" +:+ nl)
     = ["# Error: could not retrieve block height for chain '" +:+ "eth" +:+ "'"]
     ∧ List.filter is_gauge_line
         (lines ("# Error: could not retrieve block height for chain '"
                 +:+ "eth" +:+ "'" +:+ nl)) = []).
Proof.
  assert (Demo.fetch Demo.remote_url body_evm true Demo.local_down
          = (Ok (Some 105), Demo.local_down1)) as H1 by (vm_compute; reflexivity).
  assert (Demo.fetch Demo.local_url body_evm true Demo.local_down1
          = (Ok None, Demo.local_down2)) as H2 by (vm_compute; reflexivity).
  split; [exact H1 |]. split; [exact H2 |].
  exact (calculate_metrics_error_line Mock.playback "eth" Demo.local_url
           Demo.remote_url body_evm true Demo.local_down Demo.local_down1
           Demo.local_down2 (Some 105) None H1 H2 (or_intror eq_refl)).
Defined.


Lemma fetch_block_height_never_raises_witness :
  fst (Demo.fetch Demo.local_url body_evm true Demo.rpc_error) = Ok None
  ∧ fst (Demo.fetch Demo.local_url body_evm true Demo.not_json) = Ok None
  ∧ fst (fetch_block_height unit Demo.all_down Demo.local_url body_evm true (fresh _ ()))
    = Ok None.
Proof.
  split; [| split].
  - exact (proj2 (fetch_block_height_never_raises Mock.playback Demo.local_url
                    body_evm true Demo.rpc_error) eq_refl).
  - exact (proj2 (fetch_block_height_never_raises Mock.playback Demo.local_url
                    body_evm true Demo.not_json) eq_refl).
  - exact (proj2 (fetch_block_height_never_raises Demo.all_down Demo.local_url
                    body_evm true (fresh _ ())) eq_refl).
Defined.

(** The claim C7 as worded fails on an answer without [result]: the call
    returns [None], so it has failed, and the log has no record at all. *)
Lemma missing_result_is_not_logged :
  fst (Demo.fetch Demo.local_url body_evm true Demo.rpc_error) = Ok None
  ∧ log (snd (Demo.fetch Demo.local_url body_evm true Demo.rpc_error)) = []
  ∧ ¬ ∃ msg, log (snd (Demo.fetch Demo.local_url body_evm true Demo.rpc_error))
             = log Demo.rpc_error ++ [(ERROR, msg)].
Proof.
  split; [by vm_compute |]. split; [by vm_compute |].
  intros [msg Hmsg]. vm_compute in Hmsg. discriminate Hmsg.
Qed.

Lemma fetch_block_height_logging_witness :
  fst (Demo.fetch Demo.local_url body_evm true Demo.not_json) = Ok None
  ∧ (∃ msg, log (snd (Demo.fetch Demo.local_url body_evm true Demo.not_json))
            = log Demo.not_json ++ [(ERROR, msg)]
            ∧ occurs Demo.local_url msg)
  ∧ log (snd (Demo.fetch Demo.local_url body_evm true Demo.rpc_error))
    = log Demo.rpc_error.
Proof.
  split; [| split].
  - exact (proj1 (proj1 (fetch_block_height_logging Mock.playback Demo.local_url
                           body_evm true Demo.not_json) eq_refl)).
  - exact (proj2 (proj1 (fetch_block_height_logging Mock.playback Demo.local_url
                           body_evm true Demo.not_json) eq_refl)).
  - exact (proj2 (proj1 (proj2 (fetch_block_height_logging Mock.playback Demo.local_url
                                  body_evm true Demo.rpc_error)) eq_refl)).
Defined.



(** The claim C10 as worded fails on a number with a fraction: for 3.5 the
    decimal path returns 3, which is not that number. *)
Lemma fractional_result_truncated :
  fst (Demo.fetch Demo.local_url body_sol false
         (Demo.answering (PyFloat Demo.three_and_a_half))) = Ok (Some 3)
  ∧ ¬ number_equals (PyFloat Demo.three_and_a_half) 3.
Proof.
  split; [by vm_compute |]. vm_compute. discriminate.
Qed.

Lemma fetch_block_height_numeric_result_witness :
  result_of (answer Mock.playback Demo.local_url body_sol (Demo.answering (PyInt 7)))
  = Some (PyInt 7)
  ∧ fst (Demo.fetch Demo.local_url body_sol false (Demo.answering (PyInt 7))) = Ok (Some 7)
  ∧ fst (Demo.fetch Demo.local_url body_sol true (Demo.answering (PyInt 7))) = Ok None.
Proof.
  assert (result_of (answer Mock.playback Demo.local_url body_sol
                       (Demo.answering (PyInt 7))) = Some (PyInt 7)) as H by reflexivity.
  split; [exact H |].
  exact (proj1 (fetch_block_height_numeric_result Mock.playback Demo.local_url body_sol
                  (Demo.answering (PyInt 7)) (PyInt 7) H) 7 eq_refl).
Defined.

Lemma registry_conventions_witness :
  CHAIN_CONFIGS !! "sol"
  = Some {| local := "http://127.0.0.1:8899";
            remote := "https://api.mainnet-beta.solana.com";
            is_hex := false; jsonrpc_body := body_sol |}
  ∧ rpc_method body_sol = PyStr "getBlockHeight"
  ∧ "sol" ∈ chain_ids.
Proof.
  assert (CHAIN_CONFIGS !! "sol"
          = Some {| local := "http://127.0.0.1:8899";
                    remote := "https://api.mainnet-beta.solana.com";
                    is_hex := false; jsonrpc_body := body_sol |}) as H
    by (vm_compute; reflexivity).
  split; [exact H |].
  pose proof (registry_conventions "sol" _ H) as (Hin & _ & _ & Hsol & _).
  split; [exact (proj2 (Hsol eq_refl)) | exact Hin].
Defined.


Example scrape_with_nodes_down :
  fst (metrics unit Demo.all_down Demo.serving_eth)
  = Ok {| status := 200; mimetype := "text/plain";
          body := "# Error: could not retrieve block height for chain 'eth'" +:+ nl +:+ nl |}.
Proof. vm_compute. reflexivity. Qed.


(** An empty string given for an override is not applied: the test
    [if args.remote:] is false for it. *)
Example empty_override_keeps_default :
  chain_configs
    (snd (main unit Demo.all_down Mock.no_dumps
            {| Args.chain := "eth"; Args.serve := true; Args.port := 9100;
               Args.remote := Some ""; Args.local := None |} (fresh _ ())))
  !! "eth" = CHAIN_CONFIGS !! "eth".
Proof. vm_compute. reflexivity. Qed.

(** ** A computation as a function of the two answers *)

Section Rounds.

Context {World : Type}.
Variable post : string → pyval → World → reply * World.
Variable json_dumps : chain_config → string.

#[local] Abbreviation fetch := (fetch_block_height World post).
#[local] Abbreviation calc := (calculate_metrics World post).
#[local] Abbreviation view := (metrics World post).
#[local] Abbreviation start := (main World post json_dumps).

Lemma calculate_metrics_full (chain local_url remote_url : string) (body : pyval)
    (is_hex : bool) (st : proc World) :
  calc chain local_url remote_url body is_hex st
  = (Ok (round_text post chain local_url remote_url body is_hex st),
     after_round post local_url remote_url body is_hex st).
Proof.
  unfold calculate_metrics, bind, round_text, after_round, height_of, failure_records.
  rewrite (fetch_block_height_run post remote_url body is_hex st).
  unfold answer.
  destruct (outcome (fst (post remote_url body (net st))) is_hex) as [rb | e1].
  - rewrite (fetch_block_height_run post local_url body is_hex).
    unfold answer, posted at 1. cbn [net].
    destruct (outcome (fst (post local_url body _)) is_hex) as [lb | e2].
    + unfold posted, ret, render. cbn [net sent log chain_configs args config].
      rewrite !app_nil_r, <- app_assoc. cbn [app].
      destruct rb as [r |], lb as [l |];
        unfold unlines, gauge_line, error_line; rewrite ?app_assoc_s; reflexivity.
    + unfold posted, logged, ret, render.
      cbn [net sent log chain_configs args config].
      rewrite <- !app_assoc. cbn [app].
      destruct rb as [r |];
        unfold error_line; rewrite ?app_assoc_s; reflexivity.
  - rewrite (fetch_block_height_run post local_url body is_hex).
    unfold answer, logged at 1, posted at 1. cbn [net].
    destruct (outcome (fst (post local_url body _)) is_hex) as [lb | e2].
    + unfold posted, logged, ret, render.
      cbn [net sent log chain_configs args config].
      rewrite !app_nil_r, <- !app_assoc. cbn [app].
      unfold error_line; rewrite ?app_assoc_s; reflexivity.
    + unfold posted, logged, ret, render.
      cbn [net sent log chain_configs args config].
      rewrite <- !app_assoc. cbn [app].
      unfold error_line; rewrite ?app_assoc_s; reflexivity.
Qed.


End Rounds.

(** ** Requests, log and text of one computation *)

Lemma failure_records_length (url : string) (rep : reply) (is_hex : bool) :
  (length (failure_records url rep is_hex) ≤ 1)%nat
  ∧ Forall (λ r, r.1 = ERROR ∧ occurs url r.2) (failure_records url rep is_hex).
Proof.
  unfold failure_records. destruct (outcome rep is_hex) as [o | e]; cbn.
  - split; [lia | constructor].
  - split; [lia |]. repeat constructor.
    exists "Failed to fetch block height from ", (": " +:+ exc_str e). done.
Qed.

Lemma failure_records_quiet (url : string) (rep : reply) (is_hex : bool) (z : Z) :
  height_of rep is_hex = Some z → failure_records url rep is_hex = [].
Proof.
  unfold height_of, failure_records. by destruct (outcome rep is_hex).
Qed.

Lemma render_gauges (chain : string) (rb lb : option Z) :
  render chain rb lb ≠ error_line chain +:+ nl →
  ∃ r l, rb = Some r ∧ lb = Some l.
Proof. destruct rb, lb; cbn; intros H; try done; eauto. Qed.

Lemma outcome_0x_decimal (rep : reply) (t : string) :
  result_of rep = Some (PyStr ("0x" +:+ t)) →
  outcome rep false = Raise (ValueError "invalid literal for int() with base 10").
Proof.
  destruct rep as [d | [d | j]]; try done.
  destruct j as [| | | | | | items]; try done.
  unfold result_of, outcome, get_result. intros [= ->]. reflexivity.
Qed.

Section RoundProperties.

Context {World : Type}.
Variable post : string → pyval → World → reply * World.

#[local] Abbreviation fetch := (fetch_block_height World post).
#[local] Abbreviation calc := (calculate_metrics World post).

(** X1.  One call of [fetch_block_height] sends exactly one POST, to the
    URL and with the body it was given, whatever the endpoint answers:
    a failure is not retried.  It leaves the registry and the globals
    alone and appends at most one log record, an ERROR naming the URL. *)
Theorem fetch_block_height_single_attempt (url : string) (body : pyval)
    (is_hex : bool) (st : proc World) :
  fst (fetch url body is_hex st) = Ok (height_of (answer post url body st) is_hex)
  ∧ sent (snd (fetch url body is_hex st)) = sent st ++ [(url, body)]
  ∧ net (snd (fetch url body is_hex st)) = snd (post url body (net st))
  ∧ same_globals st (snd (fetch url body is_hex st))
  ∧ ∃ records,
      log (snd (fetch url body is_hex st)) = log st ++ records
      ∧ (length records ≤ 1)%nat
      ∧ Forall (λ r, r.1 = ERROR ∧ occurs url r.2) records.
Proof.
  rewrite fetch_block_height_run. unfold height_of.
  pose proof (failure_records_length url (answer post url body st) is_hex) as [Hn Hf].
  unfold failure_records in Hn, Hf.
  destruct (outcome (answer post url body st) is_hex) as [o | e]; cbn.
  - repeat split; try done. exists []. by rewrite app_nil_r.
  - repeat split; try done. eexists. split; [done |]. done.
Qed.



(** X4.  Gauge lines are returned only from a computation that logged
    nothing: whenever [calculate_metrics] returns a text other than the
    comment line, the log is as it was before the call. *)
Theorem calculate_metrics_gauges_quiet (chain local_url remote_url : string)
    (body : pyval) (is_hex : bool) (st st' : proc World) (out : string) :
  calc chain local_url remote_url body is_hex st = (Ok out, st') →
  out ≠ error_line chain +:+ nl →
  log st' = log st.
Proof.
  rewrite calculate_metrics_full. intros [= <- <-] Hne.
  unfold round_text in Hne. apply render_gauges in Hne as (r & l & Hr & Hl).
  unfold after_round. cbn [log].
  rewrite (failure_records_quiet _ _ _ _ Hr), (failure_records_quiet _ _ _ _ Hl).
  by rewrite !app_nil_r.
Qed.

(** X5.  A [result] written with the prefix 0x is never decoded on the
    decimal path: the call returns [None] and logs one ERROR record that
    names the URL, so a hexadecimal answer on a chain configured as decimal
    shows as a failure and not as a wrong height. *)
Theorem prefixed_result_rejected_on_decimal_path (url : string) (body : pyval)
    (st : proc World) (t : string) :
  result_of (answer post url body st) = Some (PyStr ("0x" +:+ t)) →
  fst (fetch url body false st) = Ok None
  ∧ ∃ msg, log (snd (fetch url body false st)) = log st ++ [(ERROR, msg)]
           ∧ occurs url msg.
Proof.
  intros Hres. rewrite fetch_block_height_run.
  rewrite (outcome_0x_decimal _ _ Hres). cbn [fst snd logged log posted].
  split; [done |]. eexists. split; [done |].
  eexists "Failed to fetch block height from ", _. reflexivity.
Qed.

End RoundProperties.

(** ** Start-up and the sequence of requests *)


Lemma registry_lookup_ids (c : string) (cfg : chain_config) :
  CHAIN_CONFIGS !! c = Some cfg → c ∈ chain_ids.
Proof.
  intros Hl. apply elem_of_list_to_map_2 in Hl.
  unfold CHAIN_CONFIGS_items, chain_ids in *.
  repeat (apply elem_of_cons in Hl as [Hl | Hl]; [simplify_eq; set_solver |]).
  by apply elem_of_nil in Hl.
Qed.

Section StartupProperties.

Context {World : Type}.
Variable post : string → pyval → World → reply * World.
Variable json_dumps : chain_config → string.

#[local] Abbreviation view := (metrics World post).
#[local] Abbreviation start := (main World post json_dumps).

(** X6.  A chain identifier that is not a key of the registry stops
    [main] with exit status 2 before anything else happens: no request is
    sent, nothing is logged, the globals stay unset and the registry is as
    it was.  [except Exception] would not catch this exit. *)
Theorem main_unknown_chain_exits (a : Args.Namespace) (w : World) :
  Args.chain a ∉ chain_ids →
  start a (fresh World w) = (Raise (SystemExit 2), fresh World w)
  ∧ is_Exception (SystemExit 2) = false.
Proof.
  intros Hc. split; [| done].
  unfold main, bind, parse_args. cbn [chain_configs fresh].
  destruct (CHAIN_CONFIGS !! Args.chain a) as [cfg |] eqn:Hl; [| done].
  by apply registry_lookup_ids in Hl.
Qed.


(** X8.  In serve mode [main] sends no request of its own.  Up to the
    point where it hands over to [app.run] it logs exactly two INFO
    records: the configuration, which is the entry as overridden since
    [dump_config] reads the registry that the overrides have changed, and
    the announcement of the server with chain and port. *)
Theorem main_serve_startup (a : Args.Namespace) (c : chain_config)
    (st0 : proc World) :
  chain_configs st0 !! Args.chain a = Some c →
  Args.serve a = true →
  ∃ e st1,
    start a st0 = (Ok (Serving (Args.port a)), st1)
    ∧ chain_configs st1 !! Args.chain a = Some e
    ∧ sent st1 = sent st0
    ∧ net st1 = net st0
    ∧ log st1
      = log st0 ++ [(INFO, "Effective config: " +:+ json_dumps e);
                    (INFO, "Starting HTTP server for " +:+ Args.chain a +:+ " on :"
                           +:+ pretty (Args.port a))].
Proof.
  intros Hl Hs. rewrite (main_run post json_dumps a c st0 Hl), Hs.
  eexists _, _. split; [done |]. unfold logged, started.
  cbn [chain_configs sent net log].
  split; [by rewrite lookup_insert_eq |]. split; [done |]. split; [done |].
  by rewrite <- app_assoc.
Qed.


(** X10.  Called while the global [args] is unset, that is in a process
    that has loaded the module without running [main], the view raises
    [NameError] before it sends any request: the state is untouched. *)
Theorem metrics_before_main (st : proc World) :
  args st = None →
  view st = (Raise (NameError "args"), st).
Proof. intros Ha. unfold metrics, bind, get_args. by rewrite Ha. Qed.




End StartupProperties.

(** ** The text and its stripped form *)









Section TextProperties.

Context {World : Type}.
Variable post : string → pyval → World → reply * World.

#[local] Abbreviation calc := (calculate_metrics World post).
#[local] Abbreviation view := (metrics World post).


End TextProperties.

(** ** The further properties on scripted networks *)

Lemma calculate_metrics_gauges_quiet_witness :
  log Demo.both_up2 = log Demo.both_up.
Proof.
  exact (calculate_metrics_gauges_quiet Mock.playback "eth" Demo.local_url
           Demo.remote_url body_evm true Demo.both_up Demo.both_up2
           (render "eth" (Some 105) (Some 100))
           ltac:(vm_compute; reflexivity)
           ltac:(vm_compute; intros H; discriminate H)).
Defined.

Lemma prefixed_result_rejected_on_decimal_path_witness :
  fst (Demo.fetch Demo.local_url body_sol false (Demo.answering (PyStr "0x10"))) = Ok None.
Proof.
  exact (proj1 (prefixed_result_rejected_on_decimal_path Mock.playback Demo.local_url
                  body_sol (Demo.answering (PyStr "0x10")) "10" eq_refl)).
Defined.

Lemma main_unknown_chain_exits_witness :
  Scenario.start Scenario.serve_btc (fresh _ Scenario.two_rounds)
  = (Raise (SystemExit 2), fresh _ Scenario.two_rounds).
Proof.
  refine (proj1 (main_unknown_chain_exits Mock.playback Mock.no_dumps
                   Scenario.serve_btc Scenario.two_rounds _)).
  unfold chain_ids. cbn. intros H.
  repeat (apply elem_of_cons in H as [H | H]; [discriminate H |]).
  by apply elem_of_nil in H.
Defined.


Lemma main_serve_startup_witness :
  ∃ e st1,
    Scenario.start Scenario.serve_sol (fresh _ Scenario.two_rounds)
    = (Ok (Serving 9200), st1)
    ∧ chain_configs st1 !! "sol" = Some e
    ∧ sent st1 = []
    ∧ log st1 = [(INFO, "Effective config: " +:+ Mock.no_dumps e);
                 (INFO, "Starting HTTP server for sol on :9200")].
Proof.
  destruct (main_serve_startup Mock.playback Mock.no_dumps Scenario.serve_sol
              Scenario.sol_entry (fresh _ Scenario.two_rounds)
              ltac:(vm_compute; reflexivity) eq_refl)
    as (e & st1 & Hmain & Hentry & Hsent & _ & Hlog).
  exists e, st1. split; [exact Hmain |]. split; [exact Hentry |].
  split; [exact Hsent | exact Hlog].
Defined.


Lemma metrics_before_main_witness :
  metrics (list reply) Mock.playback (fresh _ Scenario.two_rounds)
  = (Raise (NameError "args"), fresh _ Scenario.two_rounds).
Proof.
  exact (metrics_before_main Mock.playback (fresh _ Scenario.two_rounds) eq_refl).
Defined.




(** ** Edge values of [result], and the two modes side by side *)

Lemma FromString_blank (s : string) (base : Z) :
  PyLong.skip_spaces s = EmptyString → PyLong.FromString s base = None.
Proof. intros Hs. unfold PyLong.FromString. rewrite Hs. reflexivity. Qed.

Lemma outcome_blank (rep : reply) (s : string) (is_hex : bool) :
  result_of rep = Some (PyStr s) → PyLong.skip_spaces s = EmptyString →
  ∃ e, outcome rep is_hex = Raise e.
Proof.
  destruct rep as [d | [d | j]]; try done.
  destruct j as [| | | | | | items]; try done.
  unfold result_of, outcome, get_result. intros [= ->] Hs.
  unfold decode, py_int_base, py_int. rewrite !(FromString_blank s _ Hs).
  destruct is_hex; eauto.
Qed.

Lemma outcome_bool (rep : reply) (b : bool) :
  result_of rep = Some (PyBool b) →
  outcome rep false = Ok (Some (if b then 1 else 0))
  ∧ ∃ e, outcome rep true = Raise e.
Proof.
  destruct rep as [d | [d | j]]; try done.
  destruct j as [| | | | | | items]; try done.
  unfold result_of, outcome, get_result. intros [= ->]. cbn. eauto.
Qed.

Section EdgeProperties.

Context {World : Type}.
Variable post : string → pyval → World → reply * World.
Variable json_dumps : chain_config → string.

#[local] Abbreviation fetch := (fetch_block_height World post).
#[local] Abbreviation view := (metrics World post).
#[local] Abbreviation start := (main World post json_dumps).

(** X14.  An empty [result] string, or one made of blanks only, is not the
    same as a missing [result]: the guard lets it through, [int] rejects
    it, and the call returns [None] with one ERROR record naming the URL,
    on the hexadecimal and on the decimal path alike. *)
Theorem blank_result_is_logged_failure (url : string) (body : pyval) (is_hex : bool)
    (st : proc World) (s : string) :
  result_of (answer post url body st) = Some (PyStr s) →
  PyLong.skip_spaces s = EmptyString →
  fst (fetch url body is_hex st) = Ok None
  ∧ ∃ msg, log (snd (fetch url body is_hex st)) = log st ++ [(ERROR, msg)]
           ∧ occurs url msg.
Proof.
  intros Hres Hs. rewrite fetch_block_height_run.
  destruct (outcome_blank _ _ is_hex Hres Hs) as [e ->].
  cbn [fst snd logged log posted]. split; [done |]. eexists. split; [done |].
  eexists "Failed to fetch block height from ", _. reflexivity.
Qed.

(** X15.  A JSON boolean as [result] counts as a number on the decimal
    path: true is returned as height 1 and false as height 0, with no log
    record.  On the hexadecimal path it is a failure: [None] and one ERROR
    record naming the URL. *)
Theorem boolean_result_is_a_height (url : string) (body : pyval)
    (st : proc World) (b : bool) :
  result_of (answer post url body st) = Some (PyBool b) →
  fst (fetch url body false st) = Ok (Some (if b then 1 else 0))
  ∧ log (snd (fetch url body false st)) = log st
  ∧ fst (fetch url body true st) = Ok None
  ∧ ∃ msg, log (snd (fetch url body true st)) = log st ++ [(ERROR, msg)]
           ∧ occurs url msg.
Proof.
  intros Hres. rewrite !fetch_block_height_run.
  destruct (outcome_bool _ _ Hres) as [-> [e ->]].
  cbn [fst snd logged log posted]. split; [done |]. split; [done |].
  split; [done |]. eexists. split; [done |].
  eexists "Failed to fetch block height from ", _. reflexivity.
Qed.


End EdgeProperties.

Lemma blank_result_is_logged_failure_witness :
  fst (Demo.fetch Demo.local_url body_evm true (Demo.answering (PyStr ""))) = Ok None
  ∧ fst (Demo.fetch Demo.local_url body_sol false (Demo.answering (PyStr "  "))) = Ok None.
Proof.
  split.
  - exact (proj1 (blank_result_is_logged_failure Mock.playback Demo.local_url body_evm
                    true (Demo.answering (PyStr "")) "" eq_refl eq_refl)).
  - exact (proj1 (blank_result_is_logged_failure Mock.playback Demo.local_url body_sol
                    false (Demo.answering (PyStr "  ")) "  " eq_refl eq_refl)).
Defined.

Lemma boolean_result_is_a_height_witness :
  fst (Demo.fetch Demo.local_url body_sol false (Demo.answering (PyBool false)))
  = Ok (Some 0)
  ∧ fst (Demo.fetch Demo.local_url body_sol true (Demo.answering (PyBool false)))
    = Ok None.
Proof.
  destruct (boolean_result_is_a_height Mock.playback Demo.local_url body_sol
              (Demo.answering (PyBool false)) false eq_refl)
    as (Hdec & _ & Hhex & _).
  split; [exact Hdec | exact Hhex].
Defined.

